(** * Query-filter builder and error middleware of ny_restaurants

    A shallow embedding of [src/app/models/params.py] (the operator
    enumerations and the [Filter] / [SingleFilter] / [CombinedFilter]
    classes) and of [src/app/middleware/http_middleware.py] (the
    [CustomMiddleware.dispatch] handlers), followed by the properties
    established about them.

    Python values are an inductive type, instances are records of optional
    attribute slots (an absent slot is an attribute the constructor never
    assigned), and a method is a function into a small error monad whose
    failure case carries the exception raised. *)

From Stdlib Require Import String Ascii ZArith List Bool.
From Stdlib Require Import DecimalString.
Import ListNotations.
Local Open Scope string_scope.

(* ================================================================== *)
(** ** Operator enumerations *)
(* ================================================================== *)

(** [class OP_FIELD(Enum)]: operators for a single filter. *)
Inductive OP_FIELD : Type :=
  EQ | NE | CONTAIN | IN | NOT_IN | GT | GTE | LT | LTE | NOT.

(** [class OP(Enum)]: operators for a combined filter. *)
Inductive OP : Type := AND | OR | NOR.

Module OpField.
(** [member.value] *)
Definition value (m : OP_FIELD) : string :=
  match m with
  | EQ => "$eq" | NE => "$ne" | CONTAIN => "$regex" | IN => "$in"
  | NOT_IN => "$nin" | GT => "$gt" | GTE => "$gte" | LT => "$lt"
  | LTE => "$lte" | NOT => "$not"
  end.

(** [member.name] *)
Definition name (m : OP_FIELD) : string :=
  match m with
  | EQ => "EQ" | NE => "NE" | CONTAIN => "CONTAIN" | IN => "IN"
  | NOT_IN => "NOT_IN" | GT => "GT" | GTE => "GTE" | LT => "LT"
  | LTE => "LTE" | NOT => "NOT"
  end.

(** Iteration order of [for op in OP_FIELD]: definition order. *)
Definition members : list OP_FIELD :=
  [EQ; NE; CONTAIN; IN; NOT_IN; GT; GTE; LT; LTE; NOT].

Definition values : list string := map value members.
End OpField.

Module Op.
Definition value (m : OP) : string :=
  match m with AND => "$and" | OR => "$or" | NOR => "$nor" end.

Definition name (m : OP) : string :=
  match m with AND => "AND" | OR => "OR" | NOR => "NOR" end.

Definition members : list OP := [AND; OR; NOR].

Definition values : list string := map value members.
End Op.

(* ================================================================== *)
(** ** Python values *)
(* ================================================================== *)

(** The data a filter attribute can hold: what a JSON request body decodes
    to, plus the members of the two enumerations.  A [float] is identified
    by its [repr] text, which determines it; a [str] is its sequence of
    code points, all below 256 here. *)
#[warnings="-register-all"]
Inductive pyval : Type :=
| VNone
| VBool (b : bool)
| VInt (z : Z)
| VFloat (repr : string)
| VStr (s : string)
| VList (l : list pyval)
| VDict (d : list (pyval * pyval))
| VOpField (m : OP_FIELD)
| VOp (m : OP).

(** A [dict] in insertion order; its keys are pairwise distinct. *)
Definition pydict : Type := list (pyval * pyval).

(** The built-in classes the code tests with [isinstance]. *)
Inductive pytype : Type :=
  TNoneType | TBool | TInt | TFloat | TStr | TList | TDict | TOpField | TOp.

Definition type_of (v : pyval) : pytype :=
  match v with
  | VNone => TNoneType | VBool _ => TBool | VInt _ => TInt
  | VFloat _ => TFloat | VStr _ => TStr | VList _ => TList
  | VDict _ => TDict | VOpField _ => TOpField | VOp _ => TOp
  end.

Definition pytype_eqb (a b : pytype) : bool :=
  match a, b with
  | TNoneType, TNoneType | TBool, TBool | TInt, TInt | TFloat, TFloat
  | TStr, TStr | TList, TList | TDict, TDict | TOpField, TOpField
  | TOp, TOp => true
  | _, _ => false
  end.

(** [issubclass]: every class is its own subclass, and [bool] derives
    from [int]. *)
Definition issubclass (a b : pytype) : bool :=
  pytype_eqb a b || match a, b with TBool, TInt => true | _, _ => false end.

Definition isinstance (v : pyval) (t : pytype) : bool :=
  issubclass (type_of v) t.

(** [x == s] for a [str] constant [s]: only an equal [str] compares equal
    (an enumeration member is not equal to its own value). *)
Definition py_eq_str (x : pyval) (s : string) : bool :=
  match x with
  | VStr t => String.eqb t s
  | _ => false
  end.

(** [x in [s1, ..., sn]] for [str] constants. *)
Definition py_in_strs (x : pyval) (l : list string) : bool :=
  existsb (py_eq_str x) l.

(** Truth value of a data value. *)
Definition py_truthy (v : pyval) : bool :=
  match v with
  | VNone => false
  | VBool b => b
  | VInt z => negb (Z.eqb z 0)
  | VFloat r => negb (String.eqb r "0.0" || String.eqb r "-0.0")
  | VStr s => negb (String.eqb s "")
  | VList l => match l with [] => false | _ => true end
  | VDict d => match d with [] => false | _ => true end
  | VOpField _ => true
  | VOp _ => true
  end.

(** [hash(k)] succeeds: lists and dictionaries are unhashable. *)
Definition hashable (k : pyval) : bool :=
  match k with
  | VList _ | VDict _ => false
  | _ => true
  end.

(* ------------------------------------------------------------------ *)
(** *** [str] and [repr] *)
(* ------------------------------------------------------------------ *)

Definition chr (n : nat) : string := String (ascii_of_nat n) EmptyString.

Definition backslash : string := chr 92.

Definition hex_digit (n : nat) : string :=
  match n with
  | 0 => "0" | 1 => "1" | 2 => "2" | 3 => "3" | 4 => "4" | 5 => "5"
  | 6 => "6" | 7 => "7" | 8 => "8" | 9 => "9" | 10 => "a" | 11 => "b"
  | 12 => "c" | 13 => "d" | 14 => "e" | _ => "f"
  end.

Definition contains_char (c : ascii) (s : string) : bool :=
  existsb (Ascii.eqb c) (list_ascii_of_string s).

(** The quote [repr] encloses a [str] in: single, unless the text has a
    single quote and no double quote. *)
Definition repr_quote (s : string) : nat :=
  if contains_char (ascii_of_nat 39) s && negb (contains_char (ascii_of_nat 34) s)
  then 34 else 39.

Definition repr_char (q : nat) (c : ascii) : string :=
  let n := nat_of_ascii c in
  if Nat.eqb n 92 then backslash ++ backslash
  else if Nat.eqb n q then backslash ++ chr q
  else if Nat.eqb n 9 then backslash ++ "t"
  else if Nat.eqb n 10 then backslash ++ "n"
  else if Nat.eqb n 13 then backslash ++ "r"
  else if Nat.ltb n 32 || (Nat.leb 127 n && Nat.leb n 160) || Nat.eqb n 173
  then backslash ++ "x" ++ hex_digit (n / 16) ++ hex_digit (n mod 16)
  else String c EmptyString.

Definition repr_str (s : string) : string :=
  let q := repr_quote s in
  chr q ++ String.concat "" (map (repr_char q) (list_ascii_of_string s)) ++ chr q.

Definition str_int (z : Z) : string := NilZero.string_of_int (Z.to_int z).

Fixpoint py_repr (v : pyval) : string :=
  match v with
  | VNone => "None"
  | VBool b => if b then "True" else "False"
  | VInt z => str_int z
  | VFloat r => r
  | VStr s => repr_str s
  | VList l => "[" ++ String.concat ", " (map py_repr l) ++ "]"
  | VDict d =>
      "{" ++ String.concat ", "
               (map (fun kv => py_repr (fst kv) ++ ": " ++ py_repr (snd kv)) d)
          ++ "}"
  | VOpField m =>
      "<OP_FIELD." ++ OpField.name m ++ ": " ++ repr_str (OpField.value m) ++ ">"
  | VOp m => "<OP." ++ Op.name m ++ ": " ++ repr_str (Op.value m) ++ ">"
  end.

(** The text [str(v)], when the conversion succeeds. *)
Definition py_str (v : pyval) : string :=
  match v with
  | VStr s => s
  | VOpField m => "OP_FIELD." ++ OpField.name m
  | VOp m => "OP." ++ Op.name m
  | _ => py_repr v
  end.

(* ================================================================== *)
(** ** Exceptions and the error monad *)
(* ================================================================== *)

(** The exceptions met, by class; the runtime's own messages are
    abbreviated, a [ValueError] raised by the code carries the text the
    code passes. *)
Inductive pyexc : Type :=
| AttributeError (attr : string)
| TypeError (msg : string)
| ValueError (msg : string)
| NotImplementedError (msg : string).

Inductive result (A : Type) : Type :=
| Ok (a : A)
| Raise (e : pyexc).
Arguments Ok {A} a.
Arguments Raise {A} e.

Definition bind {A B : Type} (c : result A) (k : A -> result B) : result B :=
  match c with
  | Ok a => k a
  | Raise e => Raise e
  end.

Declare Scope py_scope.
Delimit Scope py_scope with py.
Notation "x <- c ;; k" := (bind c (fun x => k))
  (at level 61, c at next level, right associativity) : py_scope.
Notation "c ;;; k" := (bind c (fun _ => k))
  (at level 61, right associativity) : py_scope.
Local Open Scope py_scope.

(** [[body(x) for x in xs]]: the body runs on each element in order and
    the first exception ends the comprehension. *)
Fixpoint comprehension {A B : Type} (body : A -> result B) (xs : list A)
  : result (list B) :=
  match xs with
  | [] => Ok []
  | x :: rest =>
      y <- body x ;;
      ys <- comprehension body rest ;;
      Ok (y :: ys)
  end.

(** The interpreter converts no integer of more than 4300 decimal digits
    to text ([sys.get_int_max_str_digits()]); [str], [repr] and
    [json.dumps] raise [ValueError] on one. *)
Definition int_max_str_digits : Z := 4300.

Definition exceeds_str_digits (z : Z) : bool :=
  Z.leb (10 ^ int_max_str_digits) (Z.abs z).

(** No integer inside [v] is beyond the conversion limit. *)
Fixpoint str_convertible (v : pyval) : bool :=
  match v with
  | VInt z => negb (exceeds_str_digits z)
  | VList l => forallb str_convertible l
  | VDict d =>
      forallb (fun kv => str_convertible (fst kv) && str_convertible (snd kv)) d
  | _ => true
  end.

(** What a replacement field [{v}] of an f-string expands to: [str(v)],
    or the [ValueError] of an integer too long to convert.  The nesting of
    [v] is taken to be within the interpreter's recursion limit. *)
Definition py_format (v : pyval) : result string :=
  if str_convertible v then Ok (py_str v)
  else Raise (ValueError "Exceeds the limit (4300 digits) for integer string conversion").

(** The empty dictionary [{}]. *)
Definition empty_dict : pydict := [].

(** [l_request[k] = v] on the still empty [l_request]: the key is hashed,
    then the entry becomes the only one. *)
Definition store_first (k v : pyval) : result pydict :=
  if hashable k then Ok [(k, v)]
  else Raise (TypeError "unhashable type").

(* ================================================================== *)
(** ** Filter instances *)
(* ================================================================== *)

Inductive pyclass : Type := Filter_cls | SingleFilter_cls | CombinedFilter_cls.

(** An instance is its class and its attribute slots; [None] in a slot
    means the attribute does not exist on the instance.
    [filter_elements] is the one attribute that may hold instances: it
    holds a data value or, as declared, a list of instances.  Iterators
    and generators are not among the values modelled. *)
#[warnings="-register-all"]
Inductive pyobj : Type :=
| Obj (cls : pyclass)
      (value operator_field field : option pyval)
      (filter_elements : option elems)
      (operator : option pyval)
with elems : Type :=
| EVal (v : pyval)
| EObjs (l : list pyobj).

Definition cls (o : pyobj) : pyclass :=
  match o with Obj c _ _ _ _ _ => c end.
Definition value (o : pyobj) : option pyval :=
  match o with Obj _ v _ _ _ _ => v end.
Definition operator_field (o : pyobj) : option pyval :=
  match o with Obj _ _ f _ _ _ => f end.
Definition field (o : pyobj) : option pyval :=
  match o with Obj _ _ _ f _ _ => f end.
Definition filter_elements (o : pyobj) : option elems :=
  match o with Obj _ _ _ _ e _ => e end.
Definition operator (o : pyobj) : option pyval :=
  match o with Obj _ _ _ _ _ p => p end.

(** [self.name]: reading a slot that was never assigned raises. *)
Definition getattr {A : Type} (name : string) (slot : option A) : result A :=
  match slot with
  | Some a => Ok a
  | None => Raise (AttributeError name)
  end.

(** [Filter.__init__]: all five attributes are assigned; a parameter left
    out is passed as its default [EVal VNone] / [VNone]. *)
Definition Filter
  (value operator_field field : pyval) (filter_elements : elems)
  (operator : pyval) : pyobj :=
  Obj Filter_cls (Some value) (Some operator_field) (Some field)
      (Some filter_elements) (Some operator).

(** [SingleFilter.__init__]: assigns [value], [operator_field] and [field]
    and does not run the base constructor. *)
Definition SingleFilter (value operator_field field : pyval) : pyobj :=
  Obj SingleFilter_cls (Some value) (Some operator_field) (Some field)
      None None.

(** [CombinedFilter.__init__]: assigns [filter_elements] and [operator] and
    does not run the base constructor. *)
Definition CombinedFilter (filter_elements : elems) (operator : pyval) : pyobj :=
  Obj CombinedFilter_cls None None None (Some filter_elements) (Some operator).

(** Truth value of what [filter_elements] holds. *)
Definition elems_truthy (e : elems) : bool :=
  match e with
  | EVal v => py_truthy v
  | EObjs l => match l with [] => false | _ => true end
  end.

(** What iterating over [filter_elements] yields. *)
Inductive item : Type :=
| IVal (v : pyval)
| IObj (o : pyobj).

Definition py_iter (e : elems) : result (list item) :=
  match e with
  | EObjs l => Ok (map IObj l)
  | EVal (VList l) => Ok (map IVal l)
  | EVal (VStr s) =>
      Ok (map (fun c => IVal (VStr (String c EmptyString))) (list_ascii_of_string s))
  | EVal (VDict d) => Ok (map (fun kv => IVal (fst kv)) d)
  | EVal _ => Raise (TypeError "object is not iterable")
  end.

(* ================================================================== *)
(** ** The builder methods of [Filter] *)
(* ================================================================== *)

(** [Filter.checkForList]: tests [self.value]; the parameter is unused. *)
Definition checkForList (self : pyobj) (_ : pyval) : result unit :=
  v <- getattr "value" (value self) ;;
  if negb (isinstance v TList)
  then Raise (ValueError "Value should be a list.")
  else Ok tt.

(** [Filter.checkForNum]: tests [self.value]; the parameter is unused. *)
Definition checkForNum (self : pyobj) (_ : pyval) : result unit :=
  v <- getattr "value" (value self) ;;
  if negb (isinstance v TInt) then
    v' <- getattr "value" (value self) ;;
    if negb (isinstance v' TFloat)
    then Raise (ValueError "Value should be a number.")
    else Ok tt
  else Ok tt.

(** [self.operator_field == member.value] *)
Definition operator_field_is (self : pyobj) (m : OP_FIELD) : result bool :=
  f <- getattr "operator_field" (operator_field self) ;;
  Ok (py_eq_str f (OpField.value m)).

(** [l_request[self.field] = {self.operator_field: self.value}]: the
    display is evaluated first (key, then value), then the subscript. *)
Definition store_operator_document (self : pyobj) : result pydict :=
  k <- getattr "operator_field" (operator_field self) ;;
  v <- getattr "value" (value self) ;;
  f <- getattr "field" (field self) ;;
  store_first f (VDict [(k, v)]).

(** [Filter.doBuildSingle] *)
Definition doBuildSingle (self : pyobj) : result pydict :=
  let l_request := empty_dict in
  c <- operator_field_is self EQ ;;
  if c then
    v <- getattr "value" (value self) ;;
    f <- getattr "field" (field self) ;;
    store_first f v
  else
  c <- operator_field_is self NE ;;
  if c then store_operator_document self
  else
  c <- operator_field_is self NOT ;;
  if c then store_operator_document self
  else
  c <- operator_field_is self CONTAIN ;;
  if c then
    k <- getattr "operator_field" (operator_field self) ;;
    v <- getattr "value" (value self) ;;
    text <- py_format v ;;
    f <- getattr "field" (field self) ;;
    store_first f
      (VDict [(k, VStr (".*" ++ text ++ ".*")); (VStr "$options", VStr "i")])
  else
  c1 <- operator_field_is self IN ;;
  c2 <- (if c1 then Ok true else operator_field_is self NOT_IN) ;;
  if c2 then
    v <- getattr "value" (value self) ;;
    checkForList self v ;;;
    store_operator_document self
  else
  f <- getattr "operator_field" (operator_field self) ;;
  if py_in_strs f [OpField.value GT; OpField.value GTE;
                   OpField.value LT; OpField.value LTE] then
    v <- getattr "value" (value self) ;;
    checkForNum self v ;;;
    store_operator_document self
  else
  Ok l_request.

(** A call [self.doBuildSingle(a1, ..., an)]: the method takes no argument
    besides [self]. *)
Definition call_doBuildSingle (self : pyobj) (args : list item)
  : result pydict :=
  match args with
  | [] => doBuildSingle self
  | _ :: _ =>
      Raise (TypeError "doBuildSingle() takes 1 positional argument but 2 were given")
  end.

(** [Filter.doBuildCombined] *)
Definition doBuildCombined (self : pyobj) (elements : pyval) : result pydict :=
  let l_request := empty_dict in
  p <- getattr "operator" (operator self) ;;
  if py_in_strs p [Op.value AND; Op.value OR; Op.value NOR] then
    k <- getattr "operator" (operator self) ;;
    store_first k elements
  else Ok l_request.

(** [Filter.make] *)
Definition make (self : pyobj) : result pydict :=
  let l_request := empty_dict in
  e <- getattr "filter_elements" (filter_elements self) ;;
  if negb (elems_truthy e) then
    l_request <- doBuildSingle self ;;
    Ok l_request
  else
    e <- getattr "filter_elements" (filter_elements self) ;;
    xs <- py_iter e ;;
    elements <- comprehension
                  (fun single_filter => call_doBuildSingle self [single_filter])
                  xs ;;
    doBuildCombined self (VList (map VDict elements)) ;;;
    Ok l_request.

(** [Filter.apply] *)
Definition Filter_apply (self : pyobj) : result pyval :=
  Raise (NotImplementedError "Subclasses must implement apply() method").

(* ================================================================== *)
(** ** The validity checks of the subclasses *)
(* ================================================================== *)

(** [SingleFilter.apply]: the body of [for op in OP_FIELD] returns on both
    branches of its [if]; a loop that ran out of members would fall off
    the end of the method and return [None]. *)
Definition SingleFilter_apply (self : pyobj) : result pyval :=
  match OpField.members with
  | [] => Ok VNone
  | op :: _ =>
      f <- getattr "operator_field" (operator_field self) ;;
      if py_eq_str f (OpField.value op) then Ok (VBool true)
      else Ok (VBool false)
  end.

(** [CombinedFilter.apply]: the same loop over [OP]. *)
Definition CombinedFilter_apply (self : pyobj) : result pyval :=
  match Op.members with
  | [] => Ok VNone
  | op :: _ =>
      p <- getattr "operator" (operator self) ;;
      if py_eq_str p (Op.value op) then Ok (VBool true)
      else Ok (VBool false)
  end.

(** [self.apply()], dispatched on the class of the instance. *)
Definition apply (self : pyobj) : result pyval :=
  match cls self with
  | Filter_cls => Filter_apply self
  | SingleFilter_cls => SingleFilter_apply self
  | CombinedFilter_cls => CombinedFilter_apply self
  end.

(* ================================================================== *)
(** ** The error middleware *)
(* ================================================================== *)

Module Middleware.

(** Where the raised object sits below [BaseException]: the first
    handler takes an [HTTPException], the second any other [Exception];
    an exception outside [Exception] meets no handler. *)
Inductive exc_class : Type :=
  HTTPException_cls | Exception_cls | BaseException_cls.

(** The raised object: its class and the attributes the handlers probe
    with [hasattr]; [None] is an attribute the object does not have. *)
Record exc : Type := {
  exc_cls : exc_class;
  status_code : option pyval;
  detail : option pyval;
  obj : option pyval;
  args : option (list pyval);
  _errors : option pyval
}.

(** A response, by the arguments of [Response(status_code=...,
    content=..., headers=...)]: the content is kept as the document
    [json.dumps] encoded, the headers are the [headers] argument (the
    header list the framework sends is derived from it and from the
    content, whose length it adds). *)
Record response : Type := {
  resp_status_code : pyval;
  resp_content : pyval;
  resp_headers : list (string * string)
}.

(** [d[k] = v] for a [str] key: an entry with that key is replaced in
    place, otherwise the entry is added last. *)
Fixpoint setitem (d : pydict) (k : string) (v : pyval) : pydict :=
  match d with
  | [] => [(VStr k, v)]
  | (k', v') :: rest =>
      if py_eq_str k' k then (k', v) :: rest
      else (k', v') :: setitem rest k v
  end.

(** [d[k]] for a [str] key. *)
Fixpoint getitem (d : pydict) (k : string) : option pyval :=
  match d with
  | [] => None
  | (k', v') :: rest => if py_eq_str k' k then Some v' else getitem rest k
  end.

(** The first exception among the outcomes of encoding the parts of a
    container, in order. *)
Fixpoint first_error (l : list (option pyexc)) : option pyexc :=
  match l with
  | [] => None
  | Some e :: _ => Some e
  | None :: rest => first_error rest
  end.

(** Encoding an integer converts it to text, within the conversion
    limit. *)
Definition json_int_error (z : Z) : option pyexc :=
  if exceeds_str_digits z
  then Some (ValueError "Exceeds the limit (4300 digits) for integer string conversion")
  else None.

(** A dictionary key must be [str], [int], [float], [bool] or [None]. *)
Definition json_key_error (k : pyval) : option pyexc :=
  match k with
  | VNone | VBool _ | VFloat _ | VStr _ => None
  | VInt z => json_int_error z
  | _ => Some (TypeError "keys must be str, int, float, bool or None")
  end.

(** The exception [json.dumps] raises on [v], if any: the encoder walks
    the value in order, the key of an entry before its value, and an
    enumeration member has no encoding.  The nesting of [v] is taken to be
    within the interpreter's recursion limit. *)
Fixpoint json_error (v : pyval) : option pyexc :=
  match v with
  | VNone | VBool _ | VFloat _ | VStr _ => None
  | VInt z => json_int_error z
  | VList l => first_error (map json_error l)
  | VDict d =>
      first_error
        (map (fun kv =>
                match json_key_error (fst kv) with
                | Some e => Some e
                | None => json_error (snd kv)
                end) d)
  | VOpField _ | VOp _ => Some (TypeError "Object is not JSON serializable")
  end.

Definition json_dumps (v : pyval) : result pyval :=
  match json_error v with
  | Some e => Raise e
  | None => Ok v
  end.

(** [Response.__init__]: deriving the content length compares the status
    code with an integer, which raises [TypeError] unless the code is a
    number. *)
Definition Response (status_code content : pyval)
  (headers : list (string * string)) : result response :=
  if isinstance status_code TInt || isinstance status_code TFloat
  then Ok {| resp_status_code := status_code;
             resp_content := content;
             resp_headers := headers |}
  else Raise (TypeError "'<' not supported between instances").

(** The body shared, word for word, by the two [except] clauses; each
    [if hasattr(e, name)] is the match on the slot of that name. *)
Definition handler (e : exc) : result response :=
  let status_code0 := VInt 500 in
  let error_detail0 := VStr "Internal server error." in
  let error_content0 : pydict := [(VStr "detail", error_detail0)] in
  let status_code1 :=
    match status_code e with Some c => c | None => status_code0 end in
  let error_detail1 :=
    match detail e with Some d => d | None => error_detail0 end in
  let error_content1 :=
    match obj e with
    | Some o => setitem error_content0 "obj" o
    | None => error_content0
    end in
  let error_content2 :=
    match args e with
    | Some a => setitem error_content1 "args" (VList a)
    | None => error_content1
    end in
  let error_content3 :=
    match _errors e with
    | Some r => setitem error_content2 "errors" r
    | None => error_content2
    end in
  content <- json_dumps (VDict error_content3) ;;
  Response status_code1 content [("Content-Type", "application/json")].

(** An exception object that exposes [status_code] and [detail], as
    [HTTPException(status_code=code, detail=text)] does: the two
    attributes, the empty [args] of an exception raised without
    positional argument, and nothing else. *)
Definition structured_error (c : exc_class) (code : Z) (text : string) : exc :=
  {| exc_cls := c;
     status_code := Some (VInt code);
     detail := Some (VStr text);
     obj := None;
     args := Some [];
     _errors := None |}.

(** What [call_next(request)] did. *)
Inductive outcome : Type :=
| Returns (r : response)
| Raises (e : exc).

(** What [dispatch] does in turn. *)
Inductive dispatched : Type :=
| Responds (r : response)
| Propagates (e : exc)
| Fails (err : pyexc).

(** [CustomMiddleware.dispatch] *)
Definition dispatch (call_next : outcome) : dispatched :=
  match call_next with
  | Returns r => Responds r
  | Raises e =>
      match exc_cls e with
      | HTTPException_cls =>
          match handler e with Ok r => Responds r | Raise err => Fails err end
      | Exception_cls =>
          match handler e with Ok r => Responds r | Raise err => Fails err end
      | BaseException_cls => Propagates e
      end
  end.

End Middleware.

(* ================================================================== *)
(** ** Vocabulary of the specification *)
(* ================================================================== *)

(** The shape an operator requires of the filter value: a sequence for
    [IN] / [NOT_IN], a number for the four comparisons, nothing for the
    other operators. *)
Inductive shape : Type := AnyShape | SequenceShape | NumericShape.

Definition required_shape (m : OP_FIELD) : shape :=
  match m with
  | IN | NOT_IN => SequenceShape
  | GT | GTE | LT | LTE => NumericShape
  | EQ | NE | CONTAIN | NOT => AnyShape
  end.

(** A sequence is a list; a number is an integer (the booleans among
    them) or a float. *)
Definition is_sequence (v : pyval) : bool :=
  match v with VList _ => true | _ => false end.

Definition is_numeric (v : pyval) : bool :=
  match v with VBool _ | VInt _ | VFloat _ => true | _ => false end.

Definition has_shape (s : shape) (v : pyval) : bool :=
  match s with
  | AnyShape => true
  | SequenceShape => is_sequence v
  | NumericShape => is_numeric v
  end.

(** The validity check as the specification words it: the tag equals one
    of the enumerated tokens, compared against the full set. *)
Definition isValidOperator (tokens : list string) (tag : string) : bool :=
  existsb (String.eqb tag) tokens.

(** The documents of the rule table: [{F: V}] and [{F: {token: V}}]. *)
Definition bare_document (F : string) (V : pyval) : pydict :=
  [(VStr F, V)].

Definition operator_document (F token : string) (V : pyval) : pydict :=
  [(VStr F, VDict [(VStr token, V)])].

(** The keys of a dictionary, in insertion order. *)
Definition dict_keys (d : pydict) : list pyval := map fst d.

(** The documents built for [self], entry by entry: the empty one; the
    bare [{field: value}] of the equality operator; [{field: {token:
    value}}] under a token other than ["$eq"]; and the pattern document
    [{field: {"$regex": text, "$options": "i"}}]. *)
Inductive single_document (self : pyobj) : pydict -> Prop :=
| doc_empty : single_document self empty_dict
| doc_bare (F V : pyval) :
    operator_field self = Some (VStr (OpField.value EQ)) ->
    value self = Some V ->
    field self = Some F ->
    single_document self [(F, V)]
| doc_operator (F V : pyval) (m : OP_FIELD) :
    OpField.value m <> "$eq" ->
    operator_field self = Some (VStr (OpField.value m)) ->
    value self = Some V ->
    field self = Some F ->
    single_document self [(F, VDict [(VStr (OpField.value m), V)])]
| doc_pattern (F : pyval) (text : string) :
    operator_field self = Some (VStr (OpField.value CONTAIN)) ->
    field self = Some F ->
    single_document self
      [(F, VDict [(VStr "$regex", VStr text); (VStr "$options", VStr "i")])].

(** The key ["$eq"] occurs in no sub-document of [d] but one that is the
    caller's own value, stored bare under the equality operator. *)
Definition eq_token_not_emitted (self : pyobj) (d : pydict) : Prop :=
  forall F sub,
    In (F, VDict sub) d ->
    (operator_field self = Some (VStr (OpField.value EQ)) /\
     value self = Some (VDict sub)) \/
    ~ In (VStr "$eq") (dict_keys sub).

(** The filters the two subclass constructors build: a [SingleFilter] of
    any value, operator and field, and a [CombinedFilter] of a list of
    instances under any operator. *)
Inductive constructed : pyobj -> Prop :=
| constructed_single (V op F : pyval) : constructed (SingleFilter V op F)
| constructed_combined (l : list pyobj) (op : pyval) :
    constructed (CombinedFilter (EObjs l) op).

(** An exception of class [c] raised with the positional arguments [a]
    and no attribute of its own, as [Exception(a1, ..., an)] is. *)
Definition plain_error (c : Middleware.exc_class) (a : list pyval)
  : Middleware.exc :=
  {| Middleware.exc_cls := c;
     Middleware.status_code := None;
     Middleware.detail := None;
     Middleware.obj := None;
     Middleware.args := Some a;
     Middleware._errors := None |}.

(** A tag is one of the ten tokens of [OP_FIELD]. *)
Definition is_field_token (op : pyval) : bool :=
  py_in_strs op OpField.values.

(** A tag is one of the three tokens of [OP]. *)
Definition is_combine_token (op : pyval) : bool :=
  py_in_strs op Op.values.

(** The keys the handler's body has for exception [e]: ["detail"], then
    one key per attribute the exception exposes. *)
Definition body_keys (e : Middleware.exc) : list pyval :=
  [VStr "detail"]
    ++ (match Middleware.obj e with Some _ => [VStr "obj"] | None => [] end)
    ++ (match Middleware.args e with Some _ => [VStr "args"] | None => [] end)
    ++ (match Middleware._errors e with Some _ => [VStr "errors"] | None => [] end).

(* ================================================================== *)
(** ** Basic facts about values and the monad *)
(* ================================================================== *)

Lemma py_eq_str_true (x : pyval) (s : string) :
  py_eq_str x s = true <-> x = VStr s.
Proof.
  destruct x; simpl; try (split; [discriminate | discriminate]).
  rewrite String.eqb_eq. split; [intros -> | intros [= ->]]; reflexivity.
Qed.

Lemma py_eq_str_false (x : pyval) (s : string) :
  x <> VStr s -> py_eq_str x s = false.
Proof.
  intros H. destruct (py_eq_str x s) eqn:E; [|reflexivity].
  apply py_eq_str_true in E. contradiction.
Qed.

Lemma py_in_strs_true (x : pyval) (l : list string) :
  py_in_strs x l = true <-> exists s, In s l /\ x = VStr s.
Proof.
  unfold py_in_strs. rewrite existsb_exists.
  split; intros [s [Hs Hx]]; exists s; split; auto;
    now apply py_eq_str_true.
Qed.

Lemma isinstance_list (v : pyval) : isinstance v TList = is_sequence v.
Proof. destruct v; reflexivity. Qed.

Lemma isinstance_number (v : pyval) :
  isinstance v TInt || isinstance v TFloat = is_numeric v.
Proof. destruct v; reflexivity. Qed.

Lemma store_first_str (F : string) (v : pyval) :
  store_first (VStr F) v = Ok [(VStr F, v)].
Proof. reflexivity. Qed.

Lemma bind_Ok {A B : Type} (c : result A) (k : A -> result B) (b : B) :
  bind c k = Ok b -> exists a, c = Ok a /\ k a = Ok b.
Proof. destruct c; simpl; [eauto | discriminate]. Qed.

Lemma store_first_Ok (k v : pyval) (d : pydict) :
  store_first k v = Ok d -> d = [(k, v)].
Proof.
  unfold store_first. destruct (hashable k); [intros [= <-] | discriminate].
  reflexivity.
Qed.

(** The tokens of the two enumerations, member by member. *)
Lemma OpField_values_In (s : string) :
  In s OpField.values <-> exists m, s = OpField.value m.
Proof.
  split.
  - unfold OpField.values. rewrite in_map_iff. intros [m [<- _]]. now exists m.
  - intros [m ->]. destruct m; simpl; tauto.
Qed.

Lemma Op_values_In (s : string) :
  In s Op.values <-> exists m, s = Op.value m.
Proof.
  split.
  - unfold Op.values. rewrite in_map_iff. intros [m [<- _]]. now exists m.
  - intros [m ->]. destruct m; simpl; tauto.
Qed.

(* ================================================================== *)
(** ** Single-filter compilation *)
(* ================================================================== *)

Section SingleFilterRules.

Variables (V : pyval) (F : string).

(** [doBuildSingle] on a [SingleFilter] whose operator is the token of
    member [m], row by row of the rule table. *)
Lemma doBuildSingle_token (m : OP_FIELD) :
  doBuildSingle (SingleFilter V (VStr (OpField.value m)) (VStr F)) =
  match m with
  | EQ => Ok (bare_document F V)
  | CONTAIN =>
      text <- py_format V ;;
      Ok [(VStr F, VDict [(VStr "$regex", VStr (".*" ++ text ++ ".*"));
                          (VStr "$options", VStr "i")])]
  | IN | NOT_IN =>
      if is_sequence V then Ok (operator_document F (OpField.value m) V)
      else Raise (ValueError "Value should be a list.")
  | GT | GTE | LT | LTE =>
      if is_numeric V then Ok (operator_document F (OpField.value m) V)
      else Raise (ValueError "Value should be a number.")
  | NE | NOT => Ok (operator_document F (OpField.value m) V)
  end.
Proof.
  destruct m; try reflexivity; destruct V; reflexivity.
Qed.

End SingleFilterRules.

(** C4: with operator IN or NOT_IN the build raises the type-constraint
    error ([ValueError]) exactly when the value is not a sequence, with
    GT, GTE, LT or LTE exactly when it is not numeric; it raises nothing
    else, and when the shape is met it returns [{F: {token: V}}]. *)
Theorem type_constraint_raised_iff_shape_violated
  (m : OP_FIELD) (V : pyval) (F : string) :
  In m [IN; NOT_IN; GT; GTE; LT; LTE] ->
  let build := doBuildSingle (SingleFilter V (VStr (OpField.value m)) (VStr F)) in
  ((exists msg, build = Raise (ValueError msg)) <->
     has_shape (required_shape m) V = false) /\
  (forall e, build = Raise e -> exists msg, e = ValueError msg) /\
  (has_shape (required_shape m) V = true ->
     build = Ok (operator_document F (OpField.value m) V)).
Proof.
  intros Hm build. subst build. rewrite doBuildSingle_token.
  destruct m; simpl in Hm;
    try (exfalso; intuition discriminate); clear Hm; simpl;
    match goal with
    | |- context [is_sequence V] => destruct (is_sequence V)
    | |- context [is_numeric V] => destruct (is_numeric V)
    end;
    (split; [split | split]);
    try discriminate; try reflexivity;
    try (intros [msg H]; discriminate);
    try (intros _; eexists; reflexivity);
    try (intros e [= <-]; eexists; reflexivity).
Qed.

(** C7: for a string value the CONTAINS rule yields the case-insensitive
    substring pattern [{F: {"$regex": ".*" + V + ".*", "$options": "i"}}];
    the result is a returned document, so nothing is raised. *)
Theorem contains_builds_substring_regex (V F : string) :
  doBuildSingle (SingleFilter (VStr V) (VStr (OpField.value CONTAIN)) (VStr F)) =
  Ok [(VStr F, VDict [(VStr "$regex", VStr (".*" ++ V ++ ".*"));
                      (VStr "$options", VStr "i")])].
Proof. rewrite doBuildSingle_token. reflexivity. Qed.

(** Every comparison of an unknown tag against a token fails. *)
Lemma unknown_tag_matches_nothing (op : pyval) :
  (forall m, op <> VStr (OpField.value m)) ->
  forall m, py_eq_str op (OpField.value m) = false.
Proof. intros H m. apply py_eq_str_false, H. Qed.

Lemma doBuildSingle_unknown (c : pyclass) (v fl p : option pyval)
      (e : option elems) (op : pyval) :
  (forall m, op <> VStr (OpField.value m)) ->
  doBuildSingle (Obj c v (Some op) fl e p) = Ok empty_dict.
Proof.
  intros H. pose proof (unknown_tag_matches_nothing op H) as U.
  unfold doBuildSingle, operator_field_is, py_in_strs, existsb.
  unfold operator_field, getattr, bind.
  rewrite (U EQ), (U NE), (U NOT), (U CONTAIN), (U IN), (U NOT_IN),
    (U GT), (U GTE), (U LT), (U LTE).
  reflexivity.
Qed.

(** A violated shape raises before the field is looked at. *)
Lemma doBuildSingle_shape_violation (m : OP_FIELD) (V F : pyval) :
  has_shape (required_shape m) V = false ->
  exists msg,
    doBuildSingle (SingleFilter V (VStr (OpField.value m)) F) =
    Raise (ValueError msg).
Proof.
  destruct m; simpl; try discriminate; destruct V; simpl; try discriminate;
    intros _; eexists; reflexivity.
Qed.

(** C5: an operator tag outside the enumerated set builds the empty
    document for every value and field and raises nothing, whereas on the
    same value an enumerated operator whose shape the value violates does
    raise. *)
Theorem unknown_operator_builds_empty_document (V op F : pyval) :
  (forall m, op <> VStr (OpField.value m)) ->
  doBuildSingle (SingleFilter V op F) = Ok empty_dict /\
  (forall m, has_shape (required_shape m) V = false ->
     exists msg,
       doBuildSingle (SingleFilter V (VStr (OpField.value m)) F) =
       Raise (ValueError msg)).
Proof.
  intros H. split.
  - now apply doBuildSingle_unknown.
  - intros m. apply doBuildSingle_shape_violation.
Qed.

(* ------------------------------------------------------------------ *)
(** *** The documents [doBuildSingle] can return *)
(* ------------------------------------------------------------------ *)

Ltac inv_getattr :=
  repeat match goal with
  | H : bind (getattr _ ?slot) _ = Ok _ |- _ =>
      destruct slot eqn:?; simpl in H; [| discriminate H]
  | H : store_first _ _ = Ok _ |- _ => apply store_first_Ok in H; subst
  end.

Lemma store_operator_document_Ok (self : pyobj) (d : pydict) :
  store_operator_document self = Ok d ->
  exists k v f,
    operator_field self = Some k /\ value self = Some v /\
    field self = Some f /\ d = [(f, VDict [(k, v)])].
Proof.
  unfold store_operator_document. intros H. inv_getattr. eauto 8.
Qed.

Ltac inv_operator_document H Ef :=
  let k := fresh "k" in let v := fresh "v" in let fl := fresh "fl" in
  let Hk := fresh "Hk" in let Hv := fresh "Hv" in let Hf := fresh "Hf" in
  apply store_operator_document_Ok in H as (k & v & fl & Hk & Hv & Hf & ->);
  rewrite Ef in Hk; injection Hk as <-.

Lemma doBuildSingle_Ok (self : pyobj) (d : pydict) :
  doBuildSingle self = Ok d -> single_document self d.
Proof.
  unfold doBuildSingle, operator_field_is. intros H.
  destruct (operator_field self) as [f|] eqn:Ef; [| discriminate H].
  cbn [bind getattr] in H.
  destruct (py_eq_str f (OpField.value EQ)) eqn:E1.
  { apply py_eq_str_true in E1. subst f. inv_getattr.
    now apply doc_bare. }
  destruct (py_eq_str f (OpField.value NE)) eqn:E2.
  { apply py_eq_str_true in E2. subst f. inv_operator_document H Ef.
    now apply (doc_operator self _ _ NE). }
  destruct (py_eq_str f (OpField.value NOT)) eqn:E3.
  { apply py_eq_str_true in E3. subst f. inv_operator_document H Ef.
    now apply (doc_operator self _ _ NOT). }
  destruct (py_eq_str f (OpField.value CONTAIN)) eqn:E4.
  { apply py_eq_str_true in E4. subst f.
    destruct (value self) as [v|]; [| discriminate H]. cbn [getattr bind] in H.
    apply bind_Ok in H as (text & _ & H). inv_getattr.
    now apply (doc_pattern self). }
  destruct (py_eq_str f (OpField.value IN)) eqn:E5.
  { apply py_eq_str_true in E5. subst f. cbn [bind] in H.
    apply bind_Ok in H as (v & _ & H). apply bind_Ok in H as (u & _ & H).
    inv_operator_document H Ef.
    now apply (doc_operator self _ _ IN). }
  cbn [bind] in H.
  destruct (py_eq_str f (OpField.value NOT_IN)) eqn:E6.
  { apply py_eq_str_true in E6. subst f.
    apply bind_Ok in H as (v & _ & H). apply bind_Ok in H as (u & _ & H).
    inv_operator_document H Ef.
    now apply (doc_operator self _ _ NOT_IN). }
  destruct (py_in_strs f _) eqn:E7.
  - apply bind_Ok in H as (v & _ & H). apply bind_Ok in H as (u & _ & H).
    inv_operator_document H Ef.
    apply py_in_strs_true in E7 as (s & Hs & Hf'). subst.
    simpl in Hs. destruct Hs as [<- | [<- | [<- | [<- | []]]]].
    + now apply (doc_operator self _ _ GT).
    + now apply (doc_operator self _ _ GTE).
    + now apply (doc_operator self _ _ LT).
    + now apply (doc_operator self _ _ LTE).
  - injection H as <-. apply doc_empty.
Qed.

(** In none of the four forms does the builder write the key ["$eq"]. *)
Lemma single_document_no_eq_token (self : pyobj) (d : pydict) :
  single_document self d -> eq_token_not_emitted self d.
Proof.
  intros H F sub Hin. destruct H as [| F' V Hop Hv Hf | F' V m Hm Hop Hv Hf
                                     | F' text Hop Hf].
  - destruct Hin.
  - destruct Hin as [[= <- <-] | []]. left. now split.
  - destruct Hin as [[= <- <-] | []]. right. simpl.
    intros [[= E] | []]. now elim Hm.
  - destruct Hin as [[= <- <-] | []]. right. simpl.
    intros [[= ] | [[= ] | []]].
Qed.

(* ================================================================== *)
(** ** [make] and combined-filter compilation *)
(* ================================================================== *)

(** Whatever truthy thing [filter_elements] holds, [make] ends in a
    [TypeError]: either the thing cannot be iterated, or the first turn of
    the comprehension passes [doBuildSingle] an argument it does not
    take. *)
Lemma make_truthy_elements (self : pyobj) (e : elems) :
  filter_elements self = Some e ->
  elems_truthy e = true ->
  exists msg, make self = Raise (TypeError msg).
Proof.
  intros He Ht. unfold make. rewrite He. cbn [getattr bind].
  rewrite Ht. cbn [negb].
  destruct e as [v | l].
  - destruct v as [| b | z | r | s | l | d | m | m]; simpl in Ht;
      try discriminate; try (eexists; reflexivity).
    + destruct s; [discriminate | eexists; reflexivity].
    + destruct l; [discriminate | eexists; reflexivity].
    + destruct d; [discriminate | eexists; reflexivity].
  - destruct l; [discriminate | eexists; reflexivity].
Qed.

(** So a document [make] returns is one [doBuildSingle] returned. *)
Lemma make_Ok (self : pyobj) (d : pydict) :
  make self = Ok d -> doBuildSingle self = Ok d.
Proof.
  intros H.
  destruct (filter_elements self) as [e|] eqn:He.
  - destruct (elems_truthy e) eqn:Ht.
    + destruct (make_truthy_elements self e He Ht) as [msg Hm].
      rewrite Hm in H. discriminate.
    + unfold make in H. rewrite He in H. cbn [getattr bind] in H.
      rewrite Ht in H. cbn [negb] in H.
      destruct (doBuildSingle self); [exact H | discriminate].
  - unfold make in H. rewrite He in H. discriminate.
Qed.

Lemma doBuildCombined_Ok (self : pyobj) (elements : pyval) (d : pydict) :
  doBuildCombined self elements = Ok d ->
  d = empty_dict \/ exists m, d = [(VStr (Op.value m), elements)].
Proof.
  unfold doBuildCombined. intros H.
  destruct (operator self) as [p|]; [| discriminate].
  cbn [getattr bind] in H.
  destruct (py_in_strs p _) eqn:E.
  - apply store_first_Ok in H. subst d. right.
    apply py_in_strs_true in E as (s & Hs & ->).
    apply (proj1 (Op_values_In s)) in Hs as [m ->]. now exists m.
  - injection H as <-. now left.
Qed.

(** C6: the equality operator builds exactly the bare document [{F: V}];
    and no document the builder returns carries ["$eq"] as a key of its
    own making.  A document from [doBuildSingle] or [make] is empty, the
    bare [{field: value}], [{field: {token: value}}] under a token other
    than ["$eq"], or the pattern document with the keys ["$regex"] and
    ["$options"]; so ["$eq"] is a key of a sub-document only when that
    sub-document is the caller's own value stored bare.  A combination is
    empty or keyed by a token of [OP]. *)
Theorem eq_builds_bare_document_and_is_never_emitted :
  (forall (V : pyval) (F : string),
     doBuildSingle (SingleFilter V (VStr (OpField.value EQ)) (VStr F)) =
     Ok (bare_document F V)) /\
  (forall (self : pyobj) (d : pydict),
     doBuildSingle self = Ok d \/ make self = Ok d ->
     single_document self d /\ eq_token_not_emitted self d) /\
  (forall (self : pyobj) (elements : pyval) (d : pydict),
     doBuildCombined self elements = Ok d ->
     d = empty_dict \/
     exists m, d = [(VStr (Op.value m), elements)] /\ Op.value m <> "$eq").
Proof.
  split; [| split].
  - intros V F. apply (doBuildSingle_token V F EQ).
  - intros self d H.
    assert (S : single_document self d).
    { destruct H as [H | H].
      - now apply doBuildSingle_Ok.
      - now apply doBuildSingle_Ok, make_Ok. }
    split; [exact S | now apply single_document_no_eq_token].
  - intros self elements d H.
    apply doBuildCombined_Ok in H as [-> | [m ->]]; [now left | right].
    exists m. split; [reflexivity | destruct m; discriminate].
Qed.

(** [doBuildCombined] itself wraps the compiled elements under the token,
    in the order it is given them. *)
Lemma doBuildCombined_token (e : elems) (m : OP) (elements : pyval) :
  doBuildCombined (CombinedFilter e (VStr (Op.value m))) elements =
  Ok [(VStr (Op.value m), elements)].
Proof. destruct m; reflexivity. Qed.

(** C1, at the code: on a [CombinedFilter] with at least one element,
    [make] does not return the combination document.  The comprehension
    calls [self.doBuildSingle(single_filter)], a method that takes no
    argument besides [self], so the first element already raises
    [TypeError], for each of the three operators and whatever the elements
    are. *)
Theorem make_combined_raises_type_error
  (f : pyobj) (fs : list pyobj) (m : OP) :
  make (CombinedFilter (EObjs (f :: fs)) (VStr (Op.value m))) =
  Raise (TypeError "doBuildSingle() takes 1 positional argument but 2 were given").
Proof. reflexivity. Qed.

(** C8, at the code: on a [CombinedFilter] without elements, [make] takes
    the single-filter branch and [doBuildSingle] reads [operator_field],
    which [CombinedFilter.__init__] never assigned: [AttributeError], for
    every operator and for the empty list of instances as for the empty
    list of values. *)
Theorem make_empty_combined_raises_attribute_error (op : pyval) :
  make (CombinedFilter (EObjs []) op) = Raise (AttributeError "operator_field") /\
  make (CombinedFilter (EVal (VList [])) op) =
  Raise (AttributeError "operator_field").
Proof. split; reflexivity. Qed.

(** With an enumeration member as operator, [doBuildSingle] compares the
    member with each token, matches none and returns the empty document
    without checking the value. *)
Lemma doBuildSingle_enum_member (m : OP_FIELD) (V F : pyval) :
  doBuildSingle (SingleFilter V (VOpField m) F) = Ok empty_dict.
Proof. apply doBuildSingle_unknown. intros m'. discriminate. Qed.

(** Through the base constructor, which assigns every attribute, [make]
    reaches [doBuildSingle]. *)
Lemma make_base_filter (V op F p : pyval) :
  make (Filter V op F (EVal VNone) p) =
  doBuildSingle (Filter V op F (EVal VNone) p).
Proof.
  unfold make. cbn [filter_elements Filter getattr bind elems_truthy py_truthy negb].
  destruct (doBuildSingle _); reflexivity.
Qed.

(** C10, at the code: [make] on a [SingleFilter] whose operator is an
    enumeration member does not return the empty document.  Its first
    step reads [filter_elements], which [SingleFilter.__init__] never
    assigned, so it raises [AttributeError], whatever the value and the
    field. *)
Theorem make_single_enum_member_raises_attribute_error
  (m : OP_FIELD) (V F : pyval) :
  make (SingleFilter V (VOpField m) F) = Raise (AttributeError "filter_elements").
Proof. reflexivity. Qed.

(** C9, at the code: on a filter built by either subclass constructor
    [make] yields no document, on the first call or on a second one:
    every call ends in an exception, the one the first call raised. *)
Theorem make_yields_no_document_on_constructed_filters (f : pyobj) :
  constructed f ->
  exists x,
    make f = Raise x /\
    (d1 <- make f ;; d2 <- make f ;; Ok (d1, d2)) = Raise x.
Proof.
  intros [V op F | l op].
  - exists (AttributeError "filter_elements"). split; reflexivity.
  - destruct l as [| g l].
    + exists (AttributeError "operator_field"). split; reflexivity.
    + eexists. split; reflexivity.
Qed.

(* ================================================================== *)
(** ** The validity checks *)
(* ================================================================== *)

(** [apply] on a [SingleFilter] answers whether the operator is the first
    token of the enumeration. *)
Lemma SingleFilter_apply_first_member (V op F : pyval) :
  apply (SingleFilter V op F) = Ok (VBool (py_eq_str op "$eq")).
Proof.
  unfold apply, SingleFilter_apply, SingleFilter. cbn.
  destruct (py_eq_str op "$eq"); reflexivity.
Qed.

Lemma CombinedFilter_apply_first_member (e : elems) (op : pyval) :
  apply (CombinedFilter e op) = Ok (VBool (py_eq_str op "$and")).
Proof.
  unfold apply, CombinedFilter_apply, CombinedFilter. cbn.
  destruct (py_eq_str op "$and"); reflexivity.
Qed.

(** C2, at the code: every enumerated token is valid by the full-set
    check of the specification, yet [apply] returns on the first turn of
    its loop and so answers [True] for the first member only: [False] for
    the nine other field operators and for ["$or"] and ["$nor"]. *)
Theorem apply_accepts_first_member_only :
  (forall (m : OP_FIELD) (V F : pyval),
     isValidOperator OpField.values (OpField.value m) = true /\
     apply (SingleFilter V (VStr (OpField.value m)) F) =
     Ok (VBool match m with EQ => true | _ => false end)) /\
  (forall (m : OP) (e : elems),
     isValidOperator Op.values (Op.value m) = true /\
     apply (CombinedFilter e (VStr (Op.value m))) =
     Ok (VBool match m with AND => true | _ => false end)).
Proof.
  split.
  - intros m V F. destruct m; split; reflexivity.
  - intros m e. destruct m; split; reflexivity.
Qed.

(* ================================================================== *)
(** ** The error middleware *)
(* ================================================================== *)

Lemma getitem_setitem_other (d : pydict) (k k' : string) (v : pyval) :
  k <> k' -> Middleware.getitem (Middleware.setitem d k' v) k = Middleware.getitem d k.
Proof.
  intros Hk. induction d as [| [a b] d IH]; simpl.
  - destruct (String.eqb k' k) eqn:E; [| reflexivity].
    apply String.eqb_eq in E. congruence.
  - destruct (py_eq_str a k') eqn:E1; simpl.
    + destruct (py_eq_str a k) eqn:E2; [| reflexivity].
      apply py_eq_str_true in E1, E2. congruence.
    + now rewrite IH.
Qed.

(** Whatever the exception exposes, the body the handler encodes has the
    default text under ["detail"]: the dictionary is built before
    [error_detail] is replaced by [e.detail], and is not touched under
    that key afterwards. *)
Lemma handler_detail_is_default (e : Middleware.exc) (r : Middleware.response) :
  Middleware.handler e = Ok r ->
  exists d, Middleware.resp_content r = VDict d /\
            Middleware.getitem d "detail" = Some (VStr "Internal server error.").
Proof.
  unfold Middleware.handler, Middleware.json_dumps, Middleware.Response.
  intros H.
  match type of H with
  | bind (match Middleware.json_error (VDict ?d) with _ => _ end) _ = _ =>
      destruct (Middleware.json_error (VDict d)); [discriminate H |];
      exists d
  end.
  cbn [bind] in H.
  match type of H with
  | (if ?c then _ else _) = _ => destruct c; [| discriminate H]
  end.
  injection H as <-. split; [reflexivity |].
  destruct (Middleware._errors e), (Middleware.args e), (Middleware.obj e);
    repeat (rewrite getitem_setitem_other by discriminate); reflexivity.
Qed.

(** C3, at the code: an [HTTPException], or another [Exception], that
    exposes a status code and a detail text (and holds no positional
    argument) is answered with its status code, but the body carries the
    default text under ["detail"], not the exception's. *)
Theorem dispatch_drops_exception_detail (code : Z) (text : string) :
  let body := VDict [(VStr "detail", VStr "Internal server error.");
                     (VStr "args", VList [])] in
  let answer :=
    Middleware.Responds
      {| Middleware.resp_status_code := VInt code;
         Middleware.resp_content := body;
         Middleware.resp_headers := [("Content-Type", "application/json")] |} in
  Middleware.dispatch
    (Middleware.Raises
       (Middleware.structured_error Middleware.HTTPException_cls code text)) =
  answer /\
  Middleware.dispatch
    (Middleware.Raises
       (Middleware.structured_error Middleware.Exception_cls code text)) =
  answer.
Proof. split; reflexivity. Qed.

(* ================================================================== *)
(** ** The theorems at concrete filters *)
(* ================================================================== *)

Lemma type_constraint_witness :
  In IN [IN; NOT_IN; GT; GTE; LT; LTE] /\
  ((exists msg,
      doBuildSingle (SingleFilter (VStr "abc") (VStr "$in") (VStr "f")) =
      Raise (ValueError msg)) <->
   has_shape (required_shape IN) (VStr "abc") = false) /\
  (forall e,
      doBuildSingle (SingleFilter (VStr "abc") (VStr "$in") (VStr "f")) = Raise e ->
      exists msg, e = ValueError msg) /\
  (has_shape (required_shape IN) (VStr "abc") = true ->
   doBuildSingle (SingleFilter (VStr "abc") (VStr "$in") (VStr "f")) =
   Ok (operator_document "f" "$in" (VStr "abc"))).
Proof.
  split.
  - simpl. left. reflexivity.
  - apply (type_constraint_raised_iff_shape_violated IN (VStr "abc") "f").
    simpl. left. reflexivity.
Defined.

Lemma unknown_operator_witness :
  (forall m, VStr "$between" <> VStr (OpField.value m)) /\
  doBuildSingle (SingleFilter (VStr "abc") (VStr "$between") (VStr "f")) =
  Ok empty_dict /\
  (forall m, has_shape (required_shape m) (VStr "abc") = false ->
     exists msg,
       doBuildSingle (SingleFilter (VStr "abc") (VStr (OpField.value m)) (VStr "f")) =
       Raise (ValueError msg)).
Proof.
  assert (H : forall m, VStr "$between" <> VStr (OpField.value m))
    by (intros m; destruct m; discriminate).
  split.
  - exact H.
  - apply (unknown_operator_builds_empty_document
             (VStr "abc") (VStr "$between") (VStr "f") H).
Defined.

Lemma never_emitted_witness :
  (doBuildSingle (Filter (VInt 5) (VStr "$gt") (VStr "age") (EVal VNone) VNone) =
     Ok (operator_document "age" "$gt" (VInt 5)) \/
   make (Filter (VInt 5) (VStr "$gt") (VStr "age") (EVal VNone) VNone) =
     Ok (operator_document "age" "$gt" (VInt 5))) /\
  single_document (Filter (VInt 5) (VStr "$gt") (VStr "age") (EVal VNone) VNone)
                  (operator_document "age" "$gt" (VInt 5)) /\
  eq_token_not_emitted (Filter (VInt 5) (VStr "$gt") (VStr "age") (EVal VNone) VNone)
                       (operator_document "age" "$gt" (VInt 5)).
Proof.
  assert (H : doBuildSingle
                (Filter (VInt 5) (VStr "$gt") (VStr "age") (EVal VNone) VNone) =
                Ok (operator_document "age" "$gt" (VInt 5)) \/
              make (Filter (VInt 5) (VStr "$gt") (VStr "age") (EVal VNone) VNone) =
                Ok (operator_document "age" "$gt" (VInt 5)))
    by (right; reflexivity).
  split.
  - exact H.
  - apply (proj1 (proj2 eq_builds_bare_document_and_is_never_emitted) _ _ H).
Defined.

Lemma no_document_witness :
  constructed (SingleFilter (VInt 5) (VStr "$gt") (VStr "age")) /\
  exists x,
    make (SingleFilter (VInt 5) (VStr "$gt") (VStr "age")) = Raise x /\
    (d1 <- make (SingleFilter (VInt 5) (VStr "$gt") (VStr "age")) ;;
     d2 <- make (SingleFilter (VInt 5) (VStr "$gt") (VStr "age")) ;;
     Ok (d1, d2)) = Raise x.
Proof.
  assert (H : constructed (SingleFilter (VInt 5) (VStr "$gt") (VStr "age")))
    by apply constructed_single.
  split.
  - exact H.
  - apply (make_yields_no_document_on_constructed_filters _ H).
Defined.

(* ================================================================== *)
(** ** Further properties of the builder *)
(* ================================================================== *)

Lemma is_field_token_true (op : pyval) :
  is_field_token op = true <-> exists m, op = VStr (OpField.value m).
Proof.
  unfold is_field_token. rewrite py_in_strs_true. split.
  - intros (s & Hs & ->). apply OpField_values_In in Hs as [m ->]. now exists m.
  - intros [m ->]. exists (OpField.value m). split; [| reflexivity].
    apply OpField_values_In. now exists m.
Qed.

Lemma is_field_token_false (op : pyval) :
  is_field_token op = false <-> forall m, op <> VStr (OpField.value m).
Proof.
  split.
  - intros H m Hm.
    assert (T : is_field_token op = true)
      by (apply is_field_token_true; now exists m).
    congruence.
  - intros H. destruct (is_field_token op) eqn:E; [| reflexivity].
    apply is_field_token_true in E as [m Hm]. now elim (H m).
Qed.

Lemma is_combine_token_true (op : pyval) :
  is_combine_token op = true <-> exists m, op = VStr (Op.value m).
Proof.
  unfold is_combine_token. rewrite py_in_strs_true. split.
  - intros (s & Hs & ->). apply Op_values_In in Hs as [m ->]. now exists m.
  - intros [m ->]. exists (Op.value m). split; [| reflexivity].
    apply Op_values_In. now exists m.
Qed.

(** The rule table for a field of any kind: the shape check comes first,
    then the field is hashed and the document stored under it. *)
Lemma doBuildSingle_token_any_field (m : OP_FIELD) (V F : pyval) :
  doBuildSingle (SingleFilter V (VStr (OpField.value m)) F) =
  if has_shape (required_shape m) V then
    match m with
    | EQ => store_first F V
    | CONTAIN =>
        text <- py_format V ;;
        store_first F (VDict [(VStr "$regex", VStr (".*" ++ text ++ ".*"));
                              (VStr "$options", VStr "i")])
    | _ => store_first F (VDict [(VStr (OpField.value m), V)])
    end
  else
    Raise (ValueError match required_shape m with
                      | SequenceShape => "Value should be a list."
                      | _ => "Value should be a number."
                      end).
Proof.
  destruct m; try reflexivity; destruct V; reflexivity.
Qed.

(** X1: whenever [filter_elements] holds a truthy value of the model, a
    non-empty list of instances or of values, a non-empty string or
    dictionary, a non-zero number, [True] or an enumeration member,
    [make] raises [TypeError]; the combination step is not reached. *)
Theorem make_never_combines (self : pyobj) (e : elems) :
  filter_elements self = Some e ->
  elems_truthy e = true ->
  exists msg, make self = Raise (TypeError msg).
Proof. apply make_truthy_elements. Qed.

(** X2: the exception of [make] on the instances of the subclasses.  On a
    [SingleFilter] it is [AttributeError] for [filter_elements], whatever
    the operator; on a [CombinedFilter] of a list, of instances or of
    values, it is [AttributeError] for [operator_field] when the list is
    empty and the [TypeError] of the call with one argument too many
    otherwise. *)
Theorem make_raises_on_subclass_instances :
  let raised (n : nat) :=
    match n with
    | O => AttributeError "operator_field"
    | S _ => TypeError "doBuildSingle() takes 1 positional argument but 2 were given"
    end in
  (forall V op F : pyval,
     make (SingleFilter V op F) = Raise (AttributeError "filter_elements")) /\
  (forall (l : list pyobj) (op : pyval),
     make (CombinedFilter (EObjs l) op) = Raise (raised (length l))) /\
  (forall (l : list pyval) (op : pyval),
     make (CombinedFilter (EVal (VList l)) op) = Raise (raised (length l))).
Proof.
  intros raised. split; [| split].
  - reflexivity.
  - intros [| g l] op; reflexivity.
  - intros [| v l] op; reflexivity.
Qed.

(** X3: on an instance built by the base constructor with falsy
    [filter_elements] (the default [None] among them), [make] is the
    single-filter compilation of its value, operator and field, whatever
    [operator] holds. *)
Theorem make_on_base_filter (V op F p : pyval) (e : elems) :
  elems_truthy e = false ->
  make (Filter V op F e p) = doBuildSingle (SingleFilter V op F).
Proof.
  intros Ht. unfold make. cbn [filter_elements Filter getattr bind].
  rewrite Ht. cbn [negb].
  assert (E : doBuildSingle (Filter V op F e p) =
              doBuildSingle (SingleFilter V op F)) by reflexivity.
  rewrite E.
  destruct (doBuildSingle (SingleFilter V op F)); reflexivity.
Qed.

(** X4: on a [SingleFilter], the empty document is returned exactly for
    the operators outside the ten tokens: an enumerated token never
    yields it. *)
Theorem empty_document_iff_unknown_operator (V op F : pyval) :
  doBuildSingle (SingleFilter V op F) = Ok empty_dict <->
  (forall m, op <> VStr (OpField.value m)).
Proof.
  split.
  - intros H m ->. rewrite doBuildSingle_token_any_field in H.
    destruct (has_shape (required_shape m) V); [| discriminate].
    destruct m;
      try (apply bind_Ok in H as (text & _ & H));
      apply store_first_Ok in H; discriminate.
  - intros H. now apply doBuildSingle_unknown.
Qed.

(** X5: a document [doBuildSingle] returns has at most one key, and that
    key is the [field] attribute of the instance, which is hashable. *)
Theorem single_document_sole_key (self : pyobj) (d : pydict) :
  doBuildSingle self = Ok d ->
  d = empty_dict \/
  exists f, field self = Some f /\ hashable f = true /\ dict_keys d = [f].
Proof.
  assert (S : forall f x d', store_first f x = Ok d' ->
                hashable f = true /\ dict_keys d' = [f]).
  { intros f x d'. unfold store_first.
    destruct (hashable f); [intros [= <-]; now split | discriminate]. }
  assert (O : forall d', store_operator_document self = Ok d' ->
                exists f, field self = Some f /\ hashable f = true /\
                          dict_keys d' = [f]).
  { unfold store_operator_document. intros d' H.
    destruct (operator_field self); [| discriminate].
    destruct (value self); [| discriminate].
    destruct (field self) as [f|]; [| discriminate].
    cbn [getattr bind] in H. exists f. split; [reflexivity |].
    now apply S in H. }
  unfold doBuildSingle, operator_field_is. intros H.
  destruct (operator_field self) as [k|] eqn:Ek; [| discriminate H].
  cbn [bind getattr] in H.
  destruct (py_eq_str k (OpField.value EQ)).
  { destruct (value self); [| discriminate].
    destruct (field self) as [f|]; [| discriminate].
    cbn [getattr bind] in H. right. exists f. split; [reflexivity |].
    now apply S in H. }
  destruct (py_eq_str k (OpField.value NE)); [right; now apply O |].
  destruct (py_eq_str k (OpField.value NOT)); [right; now apply O |].
  destruct (py_eq_str k (OpField.value CONTAIN)).
  { destruct (value self); [| discriminate].
    cbn [getattr bind] in H. apply bind_Ok in H as (text & _ & H).
    destruct (field self) as [f|]; [| discriminate].
    cbn [getattr bind] in H. right. exists f. split; [reflexivity |].
    now apply S in H. }
  assert (T : forall c : pyval -> result unit,
            (v <- getattr "value" (value self) ;; c v ;;; store_operator_document self)
            = Ok d ->
            exists f, field self = Some f /\ hashable f = true /\ dict_keys d = [f]).
  { intros c Hc. apply bind_Ok in Hc as (v & _ & Hc).
    apply bind_Ok in Hc as (u & _ & Hc). now apply O. }
  destruct (py_eq_str k (OpField.value IN)).
  { cbn [bind] in H. right. now apply (T (checkForList self)). }
  cbn [bind] in H.
  destruct (py_eq_str k (OpField.value NOT_IN));
    [right; now apply (T (checkForList self)) |].
  destruct (py_in_strs k _); [right; now apply (T (checkForNum self)) |].
  left. now injection H.
Qed.

(** X6: what [doBuildSingle] raises on a [SingleFilter] whose operator
    is not the pattern operator ["$regex"].  The operator is then an
    enumerated token, and the exception is either the [ValueError] of a
    violated shape or, the shape being met, the [TypeError] of an
    unhashable field; and an unhashable field does raise once the shape is
    met. *)
Theorem single_filter_exceptions (V op F : pyval) :
  op <> VStr (OpField.value CONTAIN) ->
  (forall x, doBuildSingle (SingleFilter V op F) = Raise x ->
     exists m, op = VStr (OpField.value m) /\
       ((has_shape (required_shape m) V = false /\ exists msg, x = ValueError msg) \/
        (has_shape (required_shape m) V = true /\ hashable F = false /\
         x = TypeError "unhashable type"))) /\
  (forall m, op = VStr (OpField.value m) ->
     has_shape (required_shape m) V = true -> hashable F = false ->
     doBuildSingle (SingleFilter V op F) = Raise (TypeError "unhashable type")).
Proof.
  intros Hop.
  assert (S : forall m, op = VStr (OpField.value m) ->
            has_shape (required_shape m) V = true ->
            doBuildSingle (SingleFilter V op F) =
            store_first F match m with
                          | EQ => V
                          | _ => VDict [(VStr (OpField.value m), V)]
                          end).
  { intros m -> Hs. rewrite doBuildSingle_token_any_field, Hs.
    destruct m; try reflexivity. now elim Hop. }
  split.
  - intros x H. destruct (is_field_token op) eqn:E.
    + pose proof (proj1 (is_field_token_true op) E) as [m Hm]. exists m.
      split; [exact Hm |].
      destruct (has_shape (required_shape m) V) eqn:Hs.
      * right. rewrite (S m Hm Hs) in H. unfold store_first in H.
        destruct (hashable F); [discriminate |]. injection H as <-. auto.
      * left. subst op. rewrite doBuildSingle_token_any_field, Hs in H.
        injection H as <-. split; [reflexivity | eexists; reflexivity].
    + pose proof (proj1 (is_field_token_false op) E) as U.
      unfold SingleFilter in H.
      rewrite (doBuildSingle_unknown _ _ _ _ _ _ U) in H. discriminate.
  - intros m Hm Hs Hh. rewrite (S m Hm Hs).
    unfold store_first. now rewrite Hh.
Qed.

(** X7: the operators without a shape requirement besides equality and
    the pattern match, NE and NOT, wrap any value whatever unchecked:
    [{F: {token: V}}]. *)
Theorem ne_and_not_wrap_any_value (m : OP_FIELD) (V : pyval) (F : string) :
  In m [NE; NOT] ->
  doBuildSingle (SingleFilter V (VStr (OpField.value m)) (VStr F)) =
  Ok (operator_document F (OpField.value m) V).
Proof.
  intros [<- | [<- | []]]; apply (doBuildSingle_token V F).
Qed.

(** X8: on a [CombinedFilter], [doBuildCombined] never raises; it returns
    [{operator: elements}], with the elements as given, exactly when the
    operator is one of the three tokens and the empty document otherwise
    (an [OP] member itself included).  On a [SingleFilter], which has no
    [operator], it raises [AttributeError]. *)
Theorem doBuildCombined_wraps_iff_token :
  (forall (e : elems) (op elements : pyval),
     exists d,
       doBuildCombined (CombinedFilter e op) elements = Ok d /\
       (d = [(op, elements)] \/ d = empty_dict) /\
       (d <> empty_dict <-> exists m, op = VStr (Op.value m))) /\
  (forall (e : elems) (m : OP) (elements : pyval),
     doBuildCombined (CombinedFilter e (VOp m)) elements = Ok empty_dict) /\
  (forall V op F elements : pyval,
     doBuildCombined (SingleFilter V op F) elements =
     Raise (AttributeError "operator")).
Proof.
  split; [| split; reflexivity].
  intros e op elements.
  unfold doBuildCombined. cbn [operator CombinedFilter getattr bind].
  change (py_in_strs op [Op.value AND; Op.value OR; Op.value NOR])
    with (is_combine_token op).
  destruct (is_combine_token op) eqn:E.
  - pose proof (proj1 (is_combine_token_true op) E) as [m ->].
    exists [(VStr (Op.value m), elements)].
    split; [reflexivity | split; [now left |]].
    split; [intros _; now exists m | discriminate].
  - exists empty_dict. split; [reflexivity | split; [now right |]].
    split; [intros H; now elim H |].
    intros H. apply is_combine_token_true in H. congruence.
Qed.

(** X9: [apply] on an instance of a subclass always returns a boolean,
    never [None] and never an exception; it is [True] exactly when the
    operator is the first token of its enumeration, ["$eq"] for a
    [SingleFilter] and ["$and"] for a [CombinedFilter], so a [True] is
    always an enumerated token.  On an instance of the base class it
    raises [NotImplementedError]. *)
Theorem apply_true_iff_first_token :
  (forall V op F : pyval,
     exists b, apply (SingleFilter V op F) = Ok (VBool b) /\
               (b = true <-> op = VStr "$eq")) /\
  (forall (e : elems) (op : pyval),
     exists b, apply (CombinedFilter e op) = Ok (VBool b) /\
               (b = true <-> op = VStr "$and")) /\
  (forall (V op F p : pyval) (e : elems),
     apply (Filter V op F e p) =
     Raise (NotImplementedError "Subclasses must implement apply() method")).
Proof.
  split; [| split].
  - intros V op F. exists (py_eq_str op "$eq").
    split; [apply SingleFilter_apply_first_member | apply py_eq_str_true].
  - intros e op. exists (py_eq_str op "$and").
    split; [apply CombinedFilter_apply_first_member | apply py_eq_str_true].
  - reflexivity.
Qed.

(* ================================================================== *)
(** ** Further properties of the middleware *)
(* ================================================================== *)

Lemma handler_Ok (e : Middleware.exc) (r : Middleware.response) :
  Middleware.handler e = Ok r ->
  exists d,
    Middleware.json_error (VDict d) = None /\
    d = (let d0 := [(VStr "detail", VStr "Internal server error.")] in
         let d1 := match Middleware.obj e with
                   | Some o => Middleware.setitem d0 "obj" o | None => d0 end in
         let d2 := match Middleware.args e with
                   | Some a => Middleware.setitem d1 "args" (VList a)
                   | None => d1 end in
         match Middleware._errors e with
         | Some x => Middleware.setitem d2 "errors" x | None => d2 end) /\
    r = {| Middleware.resp_status_code :=
             match Middleware.status_code e with
             | Some c => c | None => VInt 500 end;
           Middleware.resp_content := VDict d;
           Middleware.resp_headers := [("Content-Type", "application/json")] |} /\
    is_numeric (Middleware.resp_status_code r) = true.
Proof.
  unfold Middleware.handler, Middleware.json_dumps, Middleware.Response.
  intros H.
  match type of H with
  | bind (match Middleware.json_error (VDict ?d) with _ => _ end) _ = _ =>
      destruct (Middleware.json_error (VDict d)) eqn:E; [discriminate H |];
      exists d
  end.
  cbn [bind] in H. rewrite isinstance_number in H.
  match type of H with
  | (if ?c then _ else _) = _ => destruct c eqn:N; [| discriminate H]
  end.
  injection H as <-. auto.
Qed.

(** X10: a response of the handler carries the status code the exception
    exposes, and 500 when it exposes none; the code it carries is a
    number, since building the response fails on any other. *)
Theorem handler_status_code (e : Middleware.exc) (r : Middleware.response) :
  Middleware.handler e = Ok r ->
  Middleware.resp_status_code r =
    match Middleware.status_code e with Some c => c | None => VInt 500 end /\
  is_numeric (Middleware.resp_status_code r) = true.
Proof.
  intros H. apply handler_Ok in H as (d & _ & _ & -> & N).
  split; [reflexivity | exact N].
Qed.

(** X11: the body of a response of the handler has the key ["detail"]
    first, then ["obj"], ["args"], ["errors"] for the attributes [obj],
    [args], [_errors] the exception exposes, and no other key.  Under
    ["detail"] is the default text, whatever [detail] the exception
    exposes; under the other keys are the attributes themselves. *)
Theorem handler_body (e : Middleware.exc) (r : Middleware.response) :
  Middleware.handler e = Ok r ->
  exists d,
    Middleware.resp_content r = VDict d /\
    dict_keys d = body_keys e /\
    Middleware.getitem d "detail" = Some (VStr "Internal server error.") /\
    Middleware.getitem d "obj" = Middleware.obj e /\
    Middleware.getitem d "args" = option_map VList (Middleware.args e) /\
    Middleware.getitem d "errors" = Middleware._errors e.
Proof.
  intros H. apply handler_Ok in H as (d & _ & Hd & -> & _).
  exists d. split; [reflexivity |]. subst d. unfold body_keys.
  destruct (Middleware.obj e), (Middleware.args e), (Middleware._errors e);
    repeat split; reflexivity.
Qed.

(** The body the handler builds can be encoded exactly when each of the
    attributes it copies can. *)
Lemma json_error_strs (texts : list string) :
  Middleware.first_error (map Middleware.json_error (map VStr texts)) = None.
Proof. induction texts as [| t texts IH]; [reflexivity | exact IH]. Qed.

Lemma handler_plain_strs (c : Middleware.exc_class) (texts : list string) :
  Middleware.handler (plain_error c (map VStr texts)) =
  Ok {| Middleware.resp_status_code := VInt 500;
        Middleware.resp_content :=
          VDict [(VStr "detail", VStr "Internal server error.");
                 (VStr "args", VList (map VStr texts))];
        Middleware.resp_headers := [("Content-Type", "application/json")] |}.
Proof.
  unfold Middleware.handler, Middleware.json_dumps, plain_error.
  cbn [Middleware.obj Middleware.args Middleware._errors Middleware.status_code
       Middleware.detail Middleware.setitem py_eq_str String.eqb Ascii.eqb
       Bool.eqb Middleware.json_error map fst snd Middleware.json_key_error
       Middleware.first_error].
  rewrite json_error_strs. reflexivity.
Qed.

(** X12: what [dispatch] does with the outcome of [call_next].  A
    returned response passes through unchanged, and an exception outside
    [Exception] propagates.  An [HTTPException] or other [Exception] is
    never propagated itself: [dispatch] responds, or fails with an
    exception of the handler's own.  It responds with status 500 and the
    body [{"detail": default, "args": [texts]}] to an exception raised
    with text arguments only, and fails with the [TypeError] of
    [json.dumps] on one whose first argument is an enumeration member. *)
Theorem dispatch_outcomes :
  (forall r, Middleware.dispatch (Middleware.Returns r) = Middleware.Responds r) /\
  (forall e,
     Middleware.exc_cls e = Middleware.BaseException_cls ->
     Middleware.dispatch (Middleware.Raises e) = Middleware.Propagates e) /\
  (forall e,
     Middleware.exc_cls e <> Middleware.BaseException_cls ->
     (exists r, Middleware.dispatch (Middleware.Raises e) = Middleware.Responds r) \/
     (exists err, Middleware.dispatch (Middleware.Raises e) = Middleware.Fails err)) /\
  (forall c texts,
     c <> Middleware.BaseException_cls ->
     Middleware.dispatch (Middleware.Raises (plain_error c (map VStr texts))) =
     Middleware.Responds
       {| Middleware.resp_status_code := VInt 500;
          Middleware.resp_content :=
            VDict [(VStr "detail", VStr "Internal server error.");
                   (VStr "args", VList (map VStr texts))];
          Middleware.resp_headers := [("Content-Type", "application/json")] |}) /\
  (forall c m rest,
     c <> Middleware.BaseException_cls ->
     Middleware.dispatch (Middleware.Raises (plain_error c (VOpField m :: rest))) =
     Middleware.Fails (TypeError "Object is not JSON serializable")).
Proof.
  assert (D : forall e, Middleware.exc_cls e <> Middleware.BaseException_cls ->
                Middleware.dispatch (Middleware.Raises e) =
                match Middleware.handler e with
                | Ok r => Middleware.Responds r
                | Raise err => Middleware.Fails err
                end).
  { intros e H. unfold Middleware.dispatch. destruct (Middleware.exc_cls e);
      [reflexivity | reflexivity | now elim H]. }
  split; [reflexivity | split; [| split; [| split]]].
  - intros e H. unfold Middleware.dispatch. now rewrite H.
  - intros e H. rewrite (D e H).
    destruct (Middleware.handler e) as [r | err]; [left | right]; eauto.
  - intros c texts H. rewrite (D (plain_error c (map VStr texts)) H).
    now rewrite handler_plain_strs.
  - intros c m rest H. rewrite (D (plain_error c (VOpField m :: rest)) H).
    reflexivity.
Qed.

(* ================================================================== *)
(** ** The further properties at concrete inputs *)
(* ================================================================== *)

Lemma make_never_combines_witness :
  filter_elements
    (Filter VNone VNone VNone
       (EObjs [SingleFilter (VStr "Bronx") (VStr "$eq") (VStr "borough")])
       (VStr "$or")) =
  Some (EObjs [SingleFilter (VStr "Bronx") (VStr "$eq") (VStr "borough")]) /\
  elems_truthy (EObjs [SingleFilter (VStr "Bronx") (VStr "$eq") (VStr "borough")]) =
  true /\
  exists msg,
    make (Filter VNone VNone VNone
            (EObjs [SingleFilter (VStr "Bronx") (VStr "$eq") (VStr "borough")])
            (VStr "$or")) = Raise (TypeError msg).
Proof.
  split; [reflexivity | split; [reflexivity |]].
  apply (make_never_combines
           (Filter VNone VNone VNone
              (EObjs [SingleFilter (VStr "Bronx") (VStr "$eq") (VStr "borough")])
              (VStr "$or"))
           (EObjs [SingleFilter (VStr "Bronx") (VStr "$eq") (VStr "borough")]));
    reflexivity.
Defined.

Lemma make_on_base_filter_witness :
  elems_truthy (EVal VNone) = false /\
  make (Filter (VList [VStr "Bakery"; VStr "Korean"]) (VStr "$in") (VStr "cuisine")
          (EVal VNone) VNone) =
  doBuildSingle
    (SingleFilter (VList [VStr "Bakery"; VStr "Korean"]) (VStr "$in") (VStr "cuisine")).
Proof.
  split; [reflexivity |].
  apply (make_on_base_filter
           (VList [VStr "Bakery"; VStr "Korean"]) (VStr "$in") (VStr "cuisine")
           VNone (EVal VNone)).
  reflexivity.
Defined.

Lemma empty_document_witness :
  (forall m, VInt 7 <> VStr (OpField.value m)) /\
  doBuildSingle (SingleFilter (VStr "abc") (VInt 7) (VStr "f")) = Ok empty_dict.
Proof.
  assert (H : forall m, VInt 7 <> VStr (OpField.value m))
    by (intros m; discriminate).
  split; [exact H |].
  apply (proj2 (empty_document_iff_unknown_operator (VStr "abc") (VInt 7) (VStr "f")) H).
Defined.

Lemma sole_key_witness :
  doBuildSingle (SingleFilter (VStr "pizza") (VStr "$regex") (VStr "name")) =
  Ok [(VStr "name", VDict [(VStr "$regex", VStr ".*pizza.*");
                           (VStr "$options", VStr "i")])] /\
  ([(VStr "name", VDict [(VStr "$regex", VStr ".*pizza.*");
                         (VStr "$options", VStr "i")])] = empty_dict \/
   exists f,
     field (SingleFilter (VStr "pizza") (VStr "$regex") (VStr "name")) = Some f /\
     hashable f = true /\
     dict_keys [(VStr "name", VDict [(VStr "$regex", VStr ".*pizza.*");
                                     (VStr "$options", VStr "i")])] = [f]).
Proof.
  split; [reflexivity |].
  apply (single_document_sole_key
           (SingleFilter (VStr "pizza") (VStr "$regex") (VStr "name"))).
  reflexivity.
Defined.

Lemma single_filter_exceptions_witness :
  VStr "$ne" <> VStr (OpField.value CONTAIN) /\
  VStr "$ne" = VStr (OpField.value NE) /\
  has_shape (required_shape NE) (VInt 3) = true /\
  hashable (VList [VStr "grades"]) = false /\
  doBuildSingle (SingleFilter (VInt 3) (VStr "$ne") (VList [VStr "grades"])) =
  Raise (TypeError "unhashable type").
Proof.
  assert (H : VStr "$ne" <> VStr (OpField.value CONTAIN)) by discriminate.
  split; [exact H |].
  repeat (split; [reflexivity |]).
  apply (proj2 (single_filter_exceptions
                  (VInt 3) (VStr "$ne") (VList [VStr "grades"]) H) NE);
    reflexivity.
Defined.

Lemma ne_and_not_witness :
  In NOT [NE; NOT] /\
  doBuildSingle
    (SingleFilter (VDict [(VStr "$gt", VInt 5)]) (VStr "$not") (VStr "score")) =
  Ok (operator_document "score" "$not" (VDict [(VStr "$gt", VInt 5)])).
Proof.
  assert (H : In NOT [NE; NOT]) by (right; left; reflexivity).
  split; [exact H |].
  apply (ne_and_not_wrap_any_value NOT (VDict [(VStr "$gt", VInt 5)]) "score" H).
Defined.

Lemma handler_status_code_witness :
  Middleware.handler (Middleware.structured_error Middleware.Exception_cls 422 "bad") =
  Ok {| Middleware.resp_status_code := VInt 422;
        Middleware.resp_content :=
          VDict [(VStr "detail", VStr "Internal server error.");
                 (VStr "args", VList [])];
        Middleware.resp_headers := [("Content-Type", "application/json")] |} /\
  Middleware.resp_status_code
    {| Middleware.resp_status_code := VInt 422;
       Middleware.resp_content :=
         VDict [(VStr "detail", VStr "Internal server error.");
                (VStr "args", VList [])];
       Middleware.resp_headers := [("Content-Type", "application/json")] |} =
  VInt 422.
Proof.
  split; [reflexivity |].
  apply (proj1 (handler_status_code
                  (Middleware.structured_error Middleware.Exception_cls 422 "bad")
                  _ eq_refl)).
Defined.

Lemma handler_body_witness :
  exists d,
    Middleware.resp_content
      {| Middleware.resp_status_code := VInt 500;
         Middleware.resp_content :=
           VDict [(VStr "detail", VStr "Internal server error.");
                  (VStr "args", VList [VStr "boom"])];
         Middleware.resp_headers := [("Content-Type", "application/json")] |} =
    VDict d /\
    dict_keys d = [VStr "detail"; VStr "args"] /\
    Middleware.getitem d "detail" = Some (VStr "Internal server error.") /\
    Middleware.getitem d "obj" = None /\
    Middleware.getitem d "args" = Some (VList [VStr "boom"]) /\
    Middleware.getitem d "errors" = None.
Proof.
  apply (handler_body
           {| Middleware.exc_cls := Middleware.Exception_cls;
              Middleware.status_code := None;
              Middleware.detail := None;
              Middleware.obj := None;
              Middleware.args := Some [VStr "boom"];
              Middleware._errors := None |}).
  reflexivity.
Defined.

Lemma dispatch_outcomes_witness :
  Middleware.Exception_cls <> Middleware.BaseException_cls /\
  Middleware.dispatch
    (Middleware.Raises (plain_error Middleware.Exception_cls [VOpField IN])) =
  Middleware.Fails (TypeError "Object is not JSON serializable").
Proof.
  assert (H : Middleware.Exception_cls <> Middleware.BaseException_cls)
    by discriminate.
  split; [exact H |].
  apply (proj2 (proj2 (proj2 (proj2 dispatch_outcomes)))
           Middleware.Exception_cls IN [] H).
Defined.
